(** * Index definitions and index queries of the RavenDB Python client

    A shallow embedding of [pyravendb/data/indexes.py]: the wire
    enumerations, [IndexFieldOptions], [IndexDefinition] and [IndexQuery],
    followed by the properties their documentation states.

    Python objects become records whose fields carry the attribute names of
    the source; [None] is [option]'s [None]; a dict with string keys is a
    [gmap string _]; a raised exception is the [Raise] case of [result]. *)

From stdpp Require Import gmap strings list fin_maps.
From Stdlib Require Import ZArith Ascii.

#[local] Set Warnings "-register-all".
Local Open Scope string_scope.

(* ===================================================================== *)
(** ** The Python runtime the module relies on *)
(* ===================================================================== *)

(** The built-in exceptions the modelled code can raise. *)
Inductive PyError := AttributeError | IndexError | TypeError | KeyError.

(** Outcome of a call: a value, or a raised exception. *)
Inductive result (A : Type) := Ok (a : A) | Raise (e : PyError).
Arguments Ok {A} a.
Arguments Raise {A} e.

#[global] Instance result_ret : MRet result := @Ok.
#[global] Instance result_bind : MBind result :=
  λ A B f r, match r with Ok a => f a | Raise e => Raise e end.

(** [bool(x)], the test behind [if x], [x and y] and [not x]. *)
Class Truthy (A : Type) := truthy : A → bool.

#[global] Instance bool_truthy : Truthy bool := λ b, b.
(** A [str] is true when it is not empty. *)
#[global] Instance string_truthy : Truthy string :=
  λ s, match s with EmptyString => false | String _ _ => true end.
(** [None] is false; any other object answers for itself. *)
#[global] Instance option_truthy `{Truthy A} : Truthy (option A) :=
  λ o, match o with None => false | Some a => truthy a end.

(** [str(x)]: dispatches to the class's [__str__]. *)
Class Str (A : Type) := str : A → string.

(** [s.startswith(prefix)]. *)
Definition startswith (s prefix : string) : bool := String.prefix prefix s.

(** The interface of [enum.Enum]: a member knows its class's name, its own
    name and its value. *)
Class Enum (E : Type) := {
  __name__ : string;
  _name_ : E → string;
  value : E → string
}.
Arguments __name__ E {_}.

(** [enum.Enum.__str__], inherited by a class that does not define its own:
    ["%s.%s" % (self.__class__.__name__, self._name_)]. *)
Definition Enum___str__ `{Enum E} (e : E) : string :=
  __name__ E ++ "." ++ _name_ e.

(** [enum.Enum] defines no [__bool__] for a class without a mixed-in data
    type: every member is true. *)
Definition Enum___bool__ `{Enum E} (e : E) : bool := true.

(** [datetime.timedelta], normalised as the interpreter stores it. *)
Record timedelta := { days : Z; seconds : Z; microseconds : Z }.

(** [timedelta(minutes=m)]. *)
Definition timedelta_minutes (m : Z) : timedelta :=
  let s := (m * 60)%Z in
  {| days := (s / 86400)%Z; seconds := (s mod 86400)%Z; microseconds := 0 |}.

(** [td.total_seconds()] for a duration of whole seconds. *)
Definition total_seconds (td : timedelta) : Z :=
  (days td * 86400 + seconds td)%Z.

(** A [timedelta] is true when it differs from [timedelta(0)]. *)
#[global] Instance timedelta_truthy : Truthy timedelta :=
  λ td, negb ((days td =? 0)%Z && (seconds td =? 0)%Z && (microseconds td =? 0)%Z).

(* ===================================================================== *)
(** ** Enumerations *)
(* ===================================================================== *)

Module IndexLockMode.
Inductive t := unlock | locked_ignore | locked_error | side_by_side.
#[global] Instance IndexLockMode_enum : Enum t := {|
  __name__ := "IndexLockMode";
  _name_ := λ e, match e with
                 | unlock => "unlock"
                 | locked_ignore => "locked_ignore"
                 | locked_error => "locked_error"
                 | side_by_side => "side_by_side"
                 end;
  value := λ e, match e with
                | unlock => "Unlock"
                | locked_ignore => "LockedIgnore"
                | locked_error => "LockedError"
                | side_by_side => "SideBySide"
                end
|}.
(** [def __str__(self): return self.value] *)
#[global] Instance IndexLockMode___str__ : Str t := λ self, value self.
#[global] Instance IndexLockMode_truthy : Truthy t := Enum___bool__.
End IndexLockMode.

Module IndexPriority.
Inductive t := low | normal | high.
#[global] Instance IndexPriority_enum : Enum t := {|
  __name__ := "IndexPriority";
  _name_ := λ e, match e with low => "low" | normal => "normal" | high => "high" end;
  value := λ e, match e with low => "Low" | normal => "Normal" | high => "High" end
|}.
#[global] Instance IndexPriority___str__ : Str t := λ self, value self.
#[global] Instance IndexPriority_truthy : Truthy t := Enum___bool__.
End IndexPriority.

(** The sort options to use for a particular field. *)
Module SortOptions.
Inductive t := none | str | numeric.
#[global] Instance SortOptions_enum : Enum t := {|
  __name__ := "SortOptions";
  _name_ := λ e, match e with none => "none" | str => "str" | numeric => "numeric" end;
  value := λ e, match e with none => "None" | str => "String" | numeric => "Numeric" end
|}.
#[global] Instance SortOptions___str__ : Str t := λ self, value self.
#[global] Instance SortOptions_truthy : Truthy t := Enum___bool__.
End SortOptions.

Module FieldIndexing.
Inductive t := no | analyzed | not_analyzed | default.
#[global] Instance FieldIndexing_enum : Enum t := {|
  __name__ := "FieldIndexing";
  _name_ := λ e, match e with
                 | no => "no"
                 | analyzed => "analyzed"
                 | not_analyzed => "not_analyzed"
                 | default => "default"
                 end;
  value := λ e, match e with
                | no => "No"
                | analyzed => "Analyzed"
                | not_analyzed => "NotAnalyzed"
                | default => "Default"
                end
|}.
#[global] Instance FieldIndexing___str__ : Str t := λ self, value self.
#[global] Instance FieldIndexing_truthy : Truthy t := Enum___bool__.
End FieldIndexing.

Module FieldTermVector.
Inductive t := no | yes | with_positions | with_offsets | with_positions_and_offsets.
#[global] Instance FieldTermVector_enum : Enum t := {|
  __name__ := "FieldTermVector";
  _name_ := λ e, match e with
                 | no => "no"
                 | yes => "yes"
                 | with_positions => "with_positions"
                 | with_offsets => "with_offsets"
                 | with_positions_and_offsets => "with_positions_and_offsets"
                 end;
  value := λ e, match e with
                | no => "No"
                | yes => "Yes"
                | with_positions => "WithPositions"
                | with_offsets => "WithOffsets"
                | with_positions_and_offsets => "WithPositionsAndOffsets"
                end
|}.
#[global] Instance FieldTermVector___str__ : Str t := λ self, value self.
#[global] Instance FieldTermVector_truthy : Truthy t := Enum___bool__.
End FieldTermVector.

Module FieldStorage.
Inductive t := yes | no.
#[global] Instance FieldStorage_enum : Enum t := {|
  __name__ := "FieldStorage";
  _name_ := λ e, match e with yes => "yes" | no => "no" end;
  value := λ e, match e with yes => "Yes" | no => "No" end
|}.
#[global] Instance FieldStorage___str__ : Str t := λ self, value self.
#[global] Instance FieldStorage_truthy : Truthy t := Enum___bool__.
End FieldStorage.

(** [QueryOperator] declares its two members and nothing else: [str] on a
    member runs the [__str__] it inherits from [enum.Enum]. *)
Module QueryOperator.
Inductive t := OR | AND.
#[global] Instance QueryOperator_enum : Enum t := {|
  __name__ := "QueryOperator";
  _name_ := λ e, match e with OR => "OR" | AND => "AND" end;
  value := λ e, match e with OR => "OR" | AND => "AND" end
|}.
#[global] Instance QueryOperator___str__ : Str t := Enum___str__.
#[global] Instance QueryOperator_truthy : Truthy t := Enum___bool__.
End QueryOperator.

(* ===================================================================== *)
(** ** Field options *)
(* ===================================================================== *)

(** [IndexFieldOptions.__init__] stores its six keyword arguments, each
    [None] by default, under the same names. *)
Record IndexFieldOptions := {
  sort_options : option SortOptions.t;
  indexing : option FieldIndexing.t;
  storage : option FieldStorage.t;
  suggestions : option bool;
  term_vector : option FieldTermVector.t;
  analyzer : option string
}.

(** [IndexFieldOptions()]: no attribute set. *)
Definition IndexFieldOptions_unset : IndexFieldOptions :=
  {| sort_options := None; indexing := None; storage := None;
     suggestions := None; term_vector := None; analyzer := None |}.

(** The values found in the dicts [to_json] builds. *)
Inductive pyval :=
| PyNone
| PyBool (b : bool)
| PyInt (z : Z)
| PyStr (s : string)
| PyTuple (l : list pyval)
| PySet (s : gset string)
| PyDict (m : gmap string pyval)
| PyObject (o : IndexFieldOptions).

(** An optional attribute stored in a dict as it is. *)
Definition py_opt {A} (inj : A → pyval) (x : option A) : pyval :=
  match x with Some a => inj a | None => PyNone end.

(** [str(x) if x else None] *)
Definition str_if `{Truthy A, Str A} (x : option A) : pyval :=
  if truthy x then py_opt (λ a, PyStr (str a)) x else PyNone.

Definition IndexFieldOptions_to_json (self : IndexFieldOptions) : gmap string pyval :=
  {[ "Analyzer" := py_opt PyStr (analyzer self);
     "Indexing" := str_if (indexing self);
     "Sort" := str_if (sort_options self);
     "Spatial" := PyNone;
     "Storage" := str_if (storage self);
     "Suggestions" := py_opt PyBool (suggestions self);
     "TermVector" := str_if (term_vector self) ]}.

(* ===================================================================== *)
(** ** Index definitions *)
(* ===================================================================== *)

(** What the attribute [maps] can hold: [__init__] stores a tuple, the [map]
    getter also provides for a [str], and the [map] setter calls the methods
    of a [set]. *)
Inductive maps_attr :=
| MapsTuple (l : list string)
| MapsSet (s : gset string)
| MapsStr (s : string).

Record IndexDefinition := {
  name : option string;
  configuration : gmap string string;
  reduce : option string;
  index_id : Z;
  is_test_index : bool;
  lock_mod : option IndexLockMode.t;
  priority : option IndexPriority.t;
  maps : maps_attr;
  fields : gmap string IndexFieldOptions
}.

(** The argument [index_map] of [__init__]: a [str], a tuple (or any other
    collection) of statements, or a value that cannot be iterated. *)
Inductive index_map_arg :=
| ArgStr (s : string)
| ArgTuple (l : list string)
| ArgNone.

(** [**kwargs] of [IndexDefinition.__init__]; [None] is a key that was not
    passed, read with [kwargs.get(key, default)]. *)
Record IndexDefinition_kwargs := {
  kw_reduce : option string;
  kw_index_id : option Z;
  kw_is_test_index : option bool;
  kw_lock_mod : option IndexLockMode.t;
  kw_priority : option IndexPriority.t;
  kw_fields : option (gmap string IndexFieldOptions)
}.

Definition no_kwargs : IndexDefinition_kwargs :=
  {| kw_reduce := None; kw_index_id := None; kw_is_test_index := None;
     kw_lock_mod := None; kw_priority := None; kw_fields := None |}.

(** The order in which a [set] built from the elements [xs] is iterated is
    left open by the language; [tuple(set(xs))] is a function [tuple_of_set]
    of the interpreter, of which only this much is known: the result lists
    every element of [xs] once. *)
Definition set_order_ok (tuple_of_set : list string → list string) : Prop :=
  ∀ xs, NoDup (tuple_of_set xs) ∧ ∀ x, x ∈ tuple_of_set xs ↔ x ∈ xs.

(** [(index_map,) if isinstance(index_map, str) else tuple(set(index_map, ))] *)
Definition init_maps (tuple_of_set : list string → list string)
    (index_map : index_map_arg) : result maps_attr :=
  match index_map with
  | ArgStr s => Ok (MapsTuple [s])
  | ArgTuple l => Ok (MapsTuple (tuple_of_set l))
  | ArgNone => Raise TypeError
  end.

Definition IndexDefinition_init (tuple_of_set : list string → list string)
    (name : option string) (index_map : index_map_arg)
    (configuration : option (gmap string string))
    (kwargs : IndexDefinition_kwargs) : result IndexDefinition :=
  m ← init_maps tuple_of_set index_map;
  mret {| name := name;
          configuration := default ∅ configuration;
          reduce := kw_reduce kwargs;
          index_id := default 0%Z (kw_index_id kwargs);
          is_test_index := default false (kw_is_test_index kwargs);
          lock_mod := kw_lock_mod kwargs;
          priority := kw_priority kwargs;
          maps := m;
          fields := default ∅ (kw_fields kwargs) |}.

(** The property [type]. *)
Definition IndexDefinition_type (self : IndexDefinition) : string :=
  let value := "Map" in
  if match name self with
     | Some n => truthy n && startswith n "Auto/"
     | None => false
     end
  then
    let value := "AutoMap" in
    let value := if truthy (reduce self) then value ++ "Reduce" else value in
    value
  else if truthy (reduce self) then "MapReduce"
  else value.

(** The property [is_map_reduce]. *)
Definition IndexDefinition_is_map_reduce (self : IndexDefinition) : bool :=
  if truthy (reduce self) then true else false.

(** [len(self.maps)] *)
Definition maps_len (m : maps_attr) : nat :=
  match m with
  | MapsTuple l => length l
  | MapsSet s => size s
  | MapsStr s => String.length s
  end.

(** The getter of the property [map]: [self.maps[0]] unless [maps] is a
    [str]. Indexing an empty tuple raises [IndexError]; a [set] cannot be
    indexed. *)
Definition IndexDefinition_map (self : IndexDefinition) : result string :=
  match maps self with
  | MapsStr s => Ok s
  | MapsTuple l =>
      match l with
      | m :: _ => Ok m
      | [] => Raise IndexError
      end
  | MapsSet _ => Raise TypeError
  end.

(** [self.maps.pop()]: only a [set] has the method, and takes out the
    element [choose] picks; tuples and strings have no such attribute. *)
Definition maps_pop (choose : gset string → option string)
    (m : maps_attr) : result maps_attr :=
  match m with
  | MapsSet s =>
      match choose s with
      | Some x => Ok (MapsSet (s ∖ {[x]}))
      | None => Raise KeyError
      end
  | MapsTuple _ | MapsStr _ => Raise AttributeError
  end.

(** [self.maps.add(value)] *)
Definition maps_add (value : string) (m : maps_attr) : result maps_attr :=
  match m with
  | MapsSet s => Ok (MapsSet ({[value]} ∪ s))
  | MapsTuple _ | MapsStr _ => Raise AttributeError
  end.

(** [set.pop()] removes an arbitrary element: [choose] picks a member of
    every set that has one. *)
Definition choose_ok (choose : gset string → option string) : Prop :=
  ∀ s, match choose s with Some x => x ∈ s | None => s = ∅ end.

Definition with_maps (self : IndexDefinition) (m : maps_attr) : IndexDefinition :=
  {| name := name self; configuration := configuration self;
     reduce := reduce self; index_id := index_id self;
     is_test_index := is_test_index self; lock_mod := lock_mod self;
     priority := priority self; maps := m; fields := fields self |}.

(** The setter of the property [map]. *)
Definition IndexDefinition_set_map (choose : gset string → option string)
    (self : IndexDefinition) (value : string) : result IndexDefinition :=
  m ← (if negb (Nat.eqb (maps_len (maps self)) 0)
       then maps_pop choose (maps self)
       else Ok (maps self));
  m' ← maps_add value m;
  mret (with_maps self m').

(** [self.maps] as the value stored under ["Maps"]. *)
Definition py_maps (m : maps_attr) : pyval :=
  match m with
  | MapsTuple l => PyTuple (PyStr <$> l)
  | MapsSet s => PySet s
  | MapsStr s => PyStr s
  end.

Definition IndexDefinition_to_json (self : IndexDefinition) : gmap string pyval :=
  {[ "Configuration" := PyDict (PyStr <$> configuration self);
     "Fields" := (if bool_decide (0 < size (fields self))
                  then PyDict ((λ o, PyDict (IndexFieldOptions_to_json o)) <$> fields self)
                  else PyDict (PyObject <$> fields self));
     "IndexId" := PyInt (index_id self);
     "IsTestIndex" := PyBool (is_test_index self);
     "LockMode" := str_if (lock_mod self);
     "Maps" := py_maps (maps self);
     "Name" := py_opt PyStr (name self);
     "Reduce" := py_opt PyStr (reduce self);
     "OutputReduceToCollection" := PyNone;
     "Priority" := str_if (priority self);
     "Type" := PyStr (IndexDefinition_type self) ]}.

(* ===================================================================== *)
(** ** Index queries *)
(* ===================================================================== *)

(** The attributes of an [IndexQuery]. Inside the class body the name
    [__page_size_set] is mangled: the attribute the object carries is
    [_IndexQuery__page_size_set]. *)
Record IndexQuery := {
  query : string;
  total_size : Z;
  skipped_results : Z;
  _page_size : Z;
  _IndexQuery__page_size_set : bool;
  default_operator : option QueryOperator.t;
  sort_hints : gmap string string;
  sort_fields : gmap string string;
  fetch : list string;
  wait_for_non_stale_results : bool;
  wait_for_non_stale_results_timeout : option timedelta
}.

(** [**kwargs] of [IndexQuery.__init__]. *)
Record IndexQuery_kwargs := {
  kw_sort_hints : option (gmap string string);
  kw_sort_fields : option (gmap string string);
  kw_fetch : option (list string);
  kw_wait_for_non_stale_results : option bool;
  kw_wait_for_non_stale_results_timeout : option timedelta
}.

Definition IndexQuery_init (query : string) (total_size skipped_results : Z)
    (default_operator : option QueryOperator.t)
    (kwargs : IndexQuery_kwargs) : IndexQuery :=
  let wait := default false (kw_wait_for_non_stale_results kwargs) in
  let timeout := kw_wait_for_non_stale_results_timeout kwargs in
  let timeout :=
    if truthy wait && negb (truthy timeout)
    then Some (timedelta_minutes 15)
    else timeout in
  {| query := query;
     total_size := total_size;
     skipped_results := skipped_results;
     _page_size := 128;
     _IndexQuery__page_size_set := false;
     default_operator := default_operator;
     sort_hints := default ∅ (kw_sort_hints kwargs);
     sort_fields := default ∅ (kw_sort_fields kwargs);
     fetch := default [] (kw_fetch kwargs);
     wait_for_non_stale_results := wait;
     wait_for_non_stale_results_timeout := timeout |}.

(** [IndexQuery()]: every parameter at its default. *)
Definition IndexQuery_default : IndexQuery :=
  IndexQuery_init "" 0 0 None
    {| kw_sort_hints := None; kw_sort_fields := None; kw_fetch := None;
       kw_wait_for_non_stale_results := None;
       kw_wait_for_non_stale_results_timeout := None |}.

(** Keyword arguments asking to wait for non-stale results, with the
    timeout given. *)
Definition waiting (timeout : option timedelta) : IndexQuery_kwargs :=
  {| kw_sort_hints := None; kw_sort_fields := None; kw_fetch := None;
     kw_wait_for_non_stale_results := Some true;
     kw_wait_for_non_stale_results_timeout := timeout |}.

(** The getter of the property [page_size]. *)
Definition IndexQuery_page_size (self : IndexQuery) : Z := _page_size self.

(** The setter of the property [page_size]. *)
Definition IndexQuery_set_page_size (self : IndexQuery) (value : Z) : IndexQuery :=
  {| query := query self;
     total_size := total_size self;
     skipped_results := skipped_results self;
     _page_size := value;
     _IndexQuery__page_size_set := true;
     default_operator := default_operator self;
     sort_hints := sort_hints self;
     sort_fields := sort_fields self;
     fetch := fetch self;
     wait_for_non_stale_results := wait_for_non_stale_results self;
     wait_for_non_stale_results_timeout := wait_for_non_stale_results_timeout self |}.

(** [q.wait_for_non_stale_results = b]: a plain attribute, so assignment
    stores the value and runs no other code. *)
Definition IndexQuery_set_wait_for_non_stale_results
    (self : IndexQuery) (b : bool) : IndexQuery :=
  {| query := query self;
     total_size := total_size self;
     skipped_results := skipped_results self;
     _page_size := _page_size self;
     _IndexQuery__page_size_set := _IndexQuery__page_size_set self;
     default_operator := default_operator self;
     sort_hints := sort_hints self;
     sort_fields := sort_fields self;
     fetch := fetch self;
     wait_for_non_stale_results := b;
     wait_for_non_stale_results_timeout := wait_for_non_stale_results_timeout self |}.

(** [q.wait_for_non_stale_results_timeout = t], likewise. *)
Definition IndexQuery_set_wait_for_non_stale_results_timeout
    (self : IndexQuery) (t : option timedelta) : IndexQuery :=
  {| query := query self;
     total_size := total_size self;
     skipped_results := skipped_results self;
     _page_size := _page_size self;
     _IndexQuery__page_size_set := _IndexQuery__page_size_set self;
     default_operator := default_operator self;
     sort_hints := sort_hints self;
     sort_fields := sort_fields self;
     fetch := fetch self;
     wait_for_non_stale_results := wait_for_non_stale_results self;
     wait_for_non_stale_results_timeout := t |}.

(* ===================================================================== *)
(** ** The documented behaviour, in the documentation's terms *)
(* ===================================================================== *)

(** "is_auto = name starts with "Auto/"" *)
Definition is_auto (d : IndexDefinition) : bool :=
  match name d with
  | Some n => startswith n "Auto/"
  | None => false
  end.

(** "has_reduce = reduce is non-empty" *)
Definition has_reduce (d : IndexDefinition) : bool :=
  match reduce d with
  | Some r => negb (String.eqb r "")
  | None => false
  end.

(** The classification table of the documentation, row by row. *)
Definition classification (auto reducing : bool) : string :=
  match auto, reducing with
  | false, false => "Map"
  | false, true => "MapReduce"
  | true, false => "AutoMap"
  | true, true => "AutoMapReduce"
  end.

(** The keys of a serialised field-options record. *)
Definition field_options_keys : gset string :=
  {[ "Analyzer"; "Indexing"; "Sort"; "Spatial"; "Storage"; "Suggestions";
     "TermVector" ]}.

(** The keys of a serialised index definition. *)
Definition index_definition_keys : gset string :=
  {[ "Configuration"; "Fields"; "IndexId"; "IsTestIndex"; "LockMode"; "Maps";
     "Name"; "Reduce"; "OutputReduceToCollection"; "Priority"; "Type" ]}.

(** An enumeration attribute on the wire: its canonical string, or null. *)
Definition token_or_null `{Enum E} (x : option E) : pyval :=
  match x with Some e => PyStr (value e) | None => PyNone end.

(** A definition as a caller obtains it: returned by [__init__]. *)
Definition constructed (tuple_of_set : list string → list string)
    (d : IndexDefinition) : Prop :=
  ∃ name index_map configuration kwargs,
    IndexDefinition_init tuple_of_set name index_map configuration kwargs = Ok d.

(** The number of map statements a definition holds. *)
Definition statements (d : IndexDefinition) : nat := maps_len (maps d).

(** A definition with one map statement, to try the classification on. *)
Definition index_named (n : option string) (r : option string) : IndexDefinition :=
  {| name := n; configuration := ∅; reduce := r; index_id := 0;
     is_test_index := false; lock_mod := None; priority := None;
     maps := MapsTuple ["from o in docs.Orders select new { o.Company }"];
     fields := ∅ |}.

(** One iteration order among those the language permits. *)
Definition sorted_order (xs : list string) : list string :=
  elements (list_to_set xs : gset string).

(** One way of picking the element [set.pop()] removes. *)
Definition first_element (s : gset string) : option string := head (elements s).

(** [for v in vs: q.page_size = v]: page sizes assigned one after the
    other. *)
Definition IndexQuery_assign_page_sizes (q : IndexQuery) (vs : list Z) : IndexQuery :=
  foldl IndexQuery_set_page_size q vs.

(** [IndexDefinition(name, index_map).to_json()] *)
Definition init_to_json (tuple_of_set : list string → list string)
    (name : option string) (index_map : index_map_arg)
    (configuration : option (gmap string string))
    (kwargs : IndexDefinition_kwargs) : result (gmap string pyval) :=
  d ← IndexDefinition_init tuple_of_set name index_map configuration kwargs;
  mret (IndexDefinition_to_json d).

(** [IndexDefinition(name, index_map).map] *)
Definition init_map (tuple_of_set : list string → list string)
    (name : option string) (index_map : index_map_arg)
    (configuration : option (gmap string string))
    (kwargs : IndexDefinition_kwargs) : result string :=
  d ← IndexDefinition_init tuple_of_set name index_map configuration kwargs;
  IndexDefinition_map d.







(* ===================================================================== *)
(** ** Strings, sets and enumerations: basic facts *)
(* ===================================================================== *)

Lemma startswith_spec (s p : string) :
  startswith s p = true ↔ ∃ rest, s = p ++ rest.
Proof.
  unfold startswith. revert s.
  induction p as [|a p IH]; intros [|b s]; simpl.
  - split; [intros _; by exists "" | done].
  - split; [intros _; by exists (String b s) | done].
  - split; [done | intros [rest Hr]; discriminate Hr].
  - destruct (Ascii.ascii_dec a b) as [->|Hne].
    + rewrite IH. split; intros [rest Hr]; exists rest; [by rewrite Hr | by injection Hr].
    + split; [done | intros [rest Hr]; injection Hr as Hab _; by destruct Hne].
Qed.

Lemma string_truthy_nonempty (s : string) : truthy s = negb (String.eqb s "").
Proof. by destruct s. Qed.

Lemma sorted_order_ok : set_order_ok sorted_order.
Proof.
  intros xs. unfold sorted_order. split.
  - apply NoDup_elements.
  - intros x. rewrite elem_of_elements. apply elem_of_list_to_set.
Qed.

Lemma first_element_ok : choose_ok first_element.
Proof.
  intros s. unfold first_element.
  destruct (elements s) as [|x l] eqn:E; simpl.
  - by apply elements_empty_inv in E; apply leibniz_equiv in E.
  - apply elem_of_elements. rewrite E. by left.
Qed.

(** In each of the six classes that define [__str__], a member renders as
    its value. *)
Lemma str_is_value :
  (∀ e : IndexLockMode.t, str e = value e)
  ∧ (∀ e : IndexPriority.t, str e = value e)
  ∧ (∀ e : SortOptions.t, str e = value e)
  ∧ (∀ e : FieldIndexing.t, str e = value e)
  ∧ (∀ e : FieldTermVector.t, str e = value e)
  ∧ (∀ e : FieldStorage.t, str e = value e).
Proof. repeat split. Qed.

(** An attribute holding a member of one of those classes, or [None],
    serialises as the member's token, or as null: members are always true. *)
Lemma str_if_token `{Enum E} (S : Str E) (T : Truthy E) (x : option E) :
  (∀ e, str e = value e) → (∀ e, truthy e = true) →
  str_if x = token_or_null x.
Proof.
  intros Hs Ht. unfold str_if, token_or_null.
  destruct x as [e|]; [|done].
  change (truthy (Some e)) with (truthy e). rewrite Ht. simpl. by rewrite Hs.
Qed.

Ltac distinct_members :=
  intros [] []; vm_compute; first [reflexivity | intros Heq; discriminate Heq].

Lemma IndexLockMode_str_inj : Inj (=) (=) (str : IndexLockMode.t → string).
Proof. distinct_members. Qed.

Lemma IndexPriority_str_inj : Inj (=) (=) (str : IndexPriority.t → string).
Proof. distinct_members. Qed.

Lemma SortOptions_str_inj : Inj (=) (=) (str : SortOptions.t → string).
Proof. distinct_members. Qed.

Lemma FieldIndexing_str_inj : Inj (=) (=) (str : FieldIndexing.t → string).
Proof. distinct_members. Qed.

Lemma FieldTermVector_str_inj : Inj (=) (=) (str : FieldTermVector.t → string).
Proof. distinct_members. Qed.

Lemma FieldStorage_str_inj : Inj (=) (=) (str : FieldStorage.t → string).
Proof. distinct_members. Qed.

Lemma QueryOperator_str_inj : Inj (=) (=) (str : QueryOperator.t → string).
Proof. distinct_members. Qed.

(** X1: the six enumerations with a [__str__] of their own render every member
    as its wire token, and no two members of one enumeration share a
    token. *)
Theorem enum_render_tokens :
  (str IndexLockMode.unlock = "Unlock"
   ∧ str IndexLockMode.locked_ignore = "LockedIgnore"
   ∧ str IndexLockMode.locked_error = "LockedError"
   ∧ str IndexLockMode.side_by_side = "SideBySide")
  ∧ (str IndexPriority.low = "Low"
     ∧ str IndexPriority.normal = "Normal"
     ∧ str IndexPriority.high = "High")
  ∧ (str SortOptions.none = "None"
     ∧ str SortOptions.str = "String"
     ∧ str SortOptions.numeric = "Numeric")
  ∧ (str FieldIndexing.no = "No"
     ∧ str FieldIndexing.analyzed = "Analyzed"
     ∧ str FieldIndexing.not_analyzed = "NotAnalyzed"
     ∧ str FieldIndexing.default = "Default")
  ∧ (str FieldTermVector.no = "No"
     ∧ str FieldTermVector.yes = "Yes"
     ∧ str FieldTermVector.with_positions = "WithPositions"
     ∧ str FieldTermVector.with_offsets = "WithOffsets"
     ∧ str FieldTermVector.with_positions_and_offsets = "WithPositionsAndOffsets")
  ∧ (str FieldStorage.yes = "Yes" ∧ str FieldStorage.no = "No")
  ∧ (∀ a b : IndexLockMode.t, str a = str b ↔ a = b)
  ∧ (∀ a b : IndexPriority.t, str a = str b ↔ a = b)
  ∧ (∀ a b : SortOptions.t, str a = str b ↔ a = b)
  ∧ (∀ a b : FieldIndexing.t, str a = str b ↔ a = b)
  ∧ (∀ a b : FieldTermVector.t, str a = str b ↔ a = b)
  ∧ (∀ a b : FieldStorage.t, str a = str b ↔ a = b).
Proof.
  repeat match goal with |- _ ∧ _ => split end; try reflexivity;
    intros a b; (split; [|by intros ->]).
  - apply IndexLockMode_str_inj.
  - apply IndexPriority_str_inj.
  - apply SortOptions_str_inj.
  - apply FieldIndexing_str_inj.
  - apply FieldTermVector_str_inj.
  - apply FieldStorage_str_inj.
Qed.

(** The tokens are canonical per enumeration only: ["Yes"] and ["No"] each
    name a member of more than one enumeration. *)
Lemma tokens_shared_across_enumerations :
  str FieldIndexing.no = str FieldStorage.no
  ∧ str FieldIndexing.no = str FieldTermVector.no
  ∧ str FieldStorage.yes = str FieldTermVector.yes.
Proof. repeat split. Qed.

(** C9: rendering a member of every enumeration, the query operator
    included, should return its canonical wire token. [QueryOperator] is the
    one class without a [__str__]: [str(QueryOperator.OR)] is
    ["QueryOperator.OR"] and [str(QueryOperator.AND)] is
    ["QueryOperator.AND"], while the tokens, ["OR"] and ["AND"], are the
    members' values. *)
Theorem QueryOperator_str_is_not_the_token :
  (∀ e : QueryOperator.t, str e = Enum___str__ e)
  ∧ str QueryOperator.OR = "QueryOperator.OR"
  ∧ str QueryOperator.AND = "QueryOperator.AND"
  ∧ value QueryOperator.OR = "OR"
  ∧ value QueryOperator.AND = "AND"
  ∧ str QueryOperator.OR ≠ value QueryOperator.OR
  ∧ str QueryOperator.AND ≠ value QueryOperator.AND.
Proof. repeat split; intros Heq; discriminate Heq. Qed.

(* ===================================================================== *)
(** ** Type classification *)
(* ===================================================================== *)

(** [if self.reduce] holds exactly when a reduce statement is present and
    not empty. *)
Lemma truthy_reduce (d : IndexDefinition) : truthy (reduce d) = has_reduce d.
Proof.
  unfold has_reduce. destruct (reduce d) as [r|]; [|done].
  apply string_truthy_nonempty.
Qed.

(** [self.name and self.name.startswith('Auto/')] holds exactly when the
    name starts with ["Auto/"]: a name with that prefix is not empty. *)
Lemma name_test_is_auto (d : IndexDefinition) :
  match name d with
  | Some n => truthy n && startswith n "Auto/"
  | None => false
  end = is_auto d.
Proof.
  unfold is_auto. destruct (name d) as [[|c n]|]; done.
Qed.

Lemma type_by_cases (d : IndexDefinition) :
  IndexDefinition_type d = classification (is_auto d) (has_reduce d).
Proof.
  unfold IndexDefinition_type.
  rewrite name_test_is_auto, truthy_reduce.
  by destruct (is_auto d), (has_reduce d).
Qed.

(** C1: the type of an index definition is the documented function of
    [is_auto] (the name starts with ["Auto/"]) and [has_reduce] (the reduce
    statement is not empty): ["Map"], ["MapReduce"], ["AutoMap"],
    ["AutoMapReduce"]. The name ["Auto/"] itself counts as auto; a name that
    holds ["Auto/"] elsewhere than at its start does not. *)
Theorem type_classification (d : IndexDefinition) :
  IndexDefinition_type d = classification (is_auto d) (has_reduce d)
  ∧ (classification false false = "Map"
     ∧ classification false true = "MapReduce"
     ∧ classification true false = "AutoMap"
     ∧ classification true true = "AutoMapReduce")
  ∧ (∀ n, name d = Some n → (is_auto d = true ↔ ∃ rest, n = "Auto/" ++ rest))
  ∧ (name d = None → is_auto d = false)
  ∧ (∀ r, reduce d = Some r → (has_reduce d = true ↔ r ≠ ""))
  ∧ (reduce d = None → has_reduce d = false)
  ∧ (name d = Some "Auto/" → is_auto d = true)
  ∧ (∀ c pre rest, c ≠ "A"%char →
       name d = Some (String c pre ++ "Auto/" ++ rest) → is_auto d = false).
Proof.
  split; [apply type_by_cases|].
  split; [done|].
  unfold is_auto, has_reduce.
  split; [intros n ->; apply startswith_spec|].
  split; [by intros ->|].
  split; [intros r ->; by destruct r|].
  split; [by intros ->|].
  split; [by intros ->|].
  intros c pre rest Hc ->. apply not_true_is_false.
  intros [r Hr]%startswith_spec. by injection Hr.
Qed.

Lemma type_classification_witness :
  (IndexDefinition_type (index_named (Some "Auto/Orders/ByCompany") (Some "r"))
   = classification (is_auto (index_named (Some "Auto/Orders/ByCompany") (Some "r")))
                    (has_reduce (index_named (Some "Auto/Orders/ByCompany") (Some "r"))))
  ∧ IndexDefinition_type (index_named (Some "Auto/Orders/ByCompany") (Some "r"))
    = "AutoMapReduce"
  ∧ IndexDefinition_type (index_named (Some "Orders/Totals") (Some "r")) = "MapReduce"
  ∧ IndexDefinition_type (index_named (Some "Orders/ByCompany") None) = "Map"
  ∧ IndexDefinition_type (index_named (Some "Auto/") None) = "AutoMap"
  ∧ IndexDefinition_type (index_named (Some "Auto/") (Some "r")) = "AutoMapReduce"
  ∧ IndexDefinition_type (index_named (Some "Orders/Auto/ByCompany") None) = "Map"
  ∧ IndexDefinition_type (index_named (Some "Orders/Auto/ByCompany") (Some "r"))
    = "MapReduce"
  ∧ IndexDefinition_type (index_named (Some "auto/Orders") (Some "r")) = "MapReduce"
  ∧ IndexDefinition_type (index_named (Some "Auto/Orders/ByCompany") (Some "")) = "AutoMap".
Proof.
  split.
  - apply (type_classification (index_named (Some "Auto/Orders/ByCompany") (Some "r"))).
  - repeat split.
Defined.

(** X2: [is_map_reduce] is [has_reduce]: true exactly when a reduce statement
    is present and not empty. *)
Theorem is_map_reduce_has_reduce (d : IndexDefinition) :
  IndexDefinition_is_map_reduce d = has_reduce d.
Proof.
  unfold IndexDefinition_is_map_reduce. rewrite truthy_reduce.
  by destruct (has_reduce d).
Qed.

(** C10: with no name ([None]) or the empty name, reading the type still
    returns a value, that of an index that is not auto: ["Map"] when the
    reduce statement is absent (or empty), ["MapReduce"] when it is not
    empty. *)
Theorem type_without_name (d : IndexDefinition) :
  name d = None ∨ name d = Some "" →
  is_auto d = false
  ∧ (reduce d = None ∨ reduce d = Some "" → IndexDefinition_type d = "Map")
  ∧ (∀ r, reduce d = Some r → r ≠ "" → IndexDefinition_type d = "MapReduce").
Proof.
  intros Hname.
  assert (is_auto d = false) as Hauto.
  { unfold is_auto. by destruct Hname as [-> | ->]. }
  split; [done|].
  rewrite type_by_cases, Hauto. unfold has_reduce.
  split.
  - by intros [-> | ->].
  - intros r -> Hr. by destruct r.
Qed.

Lemma type_without_name_witness :
  (is_auto (index_named None (Some "from r in results select r")) = false
   ∧ (reduce (index_named None (Some "from r in results select r")) = None
      ∨ reduce (index_named None (Some "from r in results select r")) = Some "" →
      IndexDefinition_type (index_named None (Some "from r in results select r")) = "Map")
   ∧ (∀ r, reduce (index_named None (Some "from r in results select r")) = Some r →
        r ≠ "" →
        IndexDefinition_type (index_named None (Some "from r in results select r"))
        = "MapReduce"))
  ∧ IndexDefinition_type (index_named None (Some "from r in results select r")) = "MapReduce"
  ∧ IndexDefinition_type (index_named (Some "") None) = "Map".
Proof.
  split; [|split].
  - apply (type_without_name (index_named None (Some "from r in results select r"))).
    left. reflexivity.
  - reflexivity.
  - reflexivity.
Defined.

(* ===================================================================== *)
(** ** Construction and the map statements *)
(* ===================================================================== *)

Section construction.
Variable tuple_of_set : list string → list string.
Variable choose : gset string → option string.

(** [__init__] fails only when [index_map] cannot be iterated, and otherwise
    stores [maps] as [init_maps] computes it. *)
Lemma init_maps_ok (n : option string) (a : index_map_arg)
    (c : option (gmap string string)) (kw : IndexDefinition_kwargs)
    (d : IndexDefinition) :
  IndexDefinition_init tuple_of_set n a c kw = Ok d ↔
  ∃ m, init_maps tuple_of_set a = Ok m
       ∧ d = {| name := n; configuration := default ∅ c; reduce := kw_reduce kw;
                index_id := default 0%Z (kw_index_id kw);
                is_test_index := default false (kw_is_test_index kw);
                lock_mod := kw_lock_mod kw; priority := kw_priority kw;
                maps := m; fields := default ∅ (kw_fields kw) |}.
Proof.
  unfold IndexDefinition_init.
  destruct (init_maps tuple_of_set a) as [m|e]; simpl.
  - split.
    + intros [= <-]. by exists m.
    + intros (m' & [= <-] & ->). done.
  - split; [done | by intros (m' & ? & _)].
Qed.

(** What [__init__] stores in [maps] is a tuple. *)
Lemma constructed_maps_tuple (d : IndexDefinition) :
  constructed tuple_of_set d → ∃ l, maps d = MapsTuple l.
Proof.
  intros (n & a & c & kw & Hd).
  apply init_maps_ok in Hd as (m & Hm & ->). simpl.
  destruct a; simpl in Hm; [injection Hm as <- ..| injection Hm as <- | done]; eauto.
Qed.

(** C3, as the code has it: given a string or a collection of statements,
    [__init__] does not fail, whatever their number. From a string, [maps]
    is the tuple of that one statement; from a collection, the tuple of its
    distinct statements, which is empty exactly when the collection is. *)
Theorem init_keeps_any_number_of_statements
    (n : option string) (c : option (gmap string string))
    (kw : IndexDefinition_kwargs) :
  set_order_ok tuple_of_set →
  (∀ s, ∃ d, IndexDefinition_init tuple_of_set n (ArgStr s) c kw = Ok d
             ∧ maps d = MapsTuple [s] ∧ statements d = 1)
  ∧ (∀ l, ∃ d l', IndexDefinition_init tuple_of_set n (ArgTuple l) c kw = Ok d
                  ∧ maps d = MapsTuple l'
                  ∧ NoDup l' ∧ (∀ x, x ∈ l' ↔ x ∈ l)
                  ∧ (statements d = 0 ↔ l = [])).
Proof.
  intros Hord. split.
  - intros s. eexists. split; [reflexivity|]. done.
  - intros l. eexists; exists (tuple_of_set l).
    split; [reflexivity|]. split; [done|].
    destruct (Hord l) as [Hnd Hin].
    repeat split; [done | apply Hin | apply Hin | |].
    + unfold statements; simpl. intros Hlen.
      apply nil_length_inv in Hlen.
      destruct l as [|x l]; [done|].
      assert (x ∈ tuple_of_set (x :: l)) as Hx by (apply Hin; left).
      rewrite Hlen in Hx. by apply elem_of_nil in Hx.
    + intros ->. unfold statements; simpl.
      destruct (tuple_of_set []) as [|y l'] eqn:E; [done|].
      assert (y ∈ []) as Hy by (apply Hin; left).
      by apply elem_of_nil in Hy.
Qed.

(** C4, as the code has it: on a definition as constructed, the getter of
    [map] returns the statement when there is exactly one; with more than
    one it does not fail either, and returns the first element of the
    tuple, one of the statements; it raises (an [IndexError]) only when
    there is no statement at all. *)
Theorem map_getter_returns_first (d : IndexDefinition) :
  constructed tuple_of_set d →
  ∃ l, maps d = MapsTuple l
       ∧ (statements d = 1 → ∃ m, l = [m] ∧ IndexDefinition_map d = Ok m)
       ∧ (1 < statements d →
          ∃ m, l !! 0 = Some m ∧ m ∈ l ∧ IndexDefinition_map d = Ok m)
       ∧ (statements d = 0 → IndexDefinition_map d = Raise IndexError).
Proof.
  intros [l Hl]%constructed_maps_tuple. exists l.
  unfold statements, IndexDefinition_map. rewrite Hl. simpl.
  split; [done|]. repeat split.
  - destruct l as [|m [|m' l]]; simpl; intros Hlen; try discriminate Hlen.
    by exists m.
  - destruct l as [|m l]; simpl; intros Hlen; [lia|].
    exists m. repeat split. by left.
  - by intros ->%nil_length_inv.
Qed.

(** C2: assigning to [map] should leave exactly the assigned statement. On
    a definition as constructed [maps] is a tuple, which has neither [pop]
    nor [add]: the assignment raises [AttributeError], whatever the
    statements and the value. *)
Theorem map_setter_raises (d : IndexDefinition) (v : string) :
  constructed tuple_of_set d →
  IndexDefinition_set_map choose d v = Raise AttributeError.
Proof.
  intros [l Hl]%constructed_maps_tuple.
  unfold IndexDefinition_set_map. rewrite Hl. simpl.
  by destruct (negb (Nat.eqb (length l) 0)).
Qed.

(** The setter on a [maps] that the owner replaced by a [set]: one
    statement, the one [pop] picks, leaves, and the value enters. *)
Lemma map_setter_on_set (d : IndexDefinition) (s : gset string) (v : string) :
  choose_ok choose → maps d = MapsSet s →
  (s = ∅ → IndexDefinition_set_map choose d v = Ok (with_maps d (MapsSet {[v]})))
  ∧ (s ≠ ∅ → ∃ x, x ∈ s ∧ IndexDefinition_set_map choose d v
                          = Ok (with_maps d (MapsSet ({[v]} ∪ s ∖ {[x]})))).
Proof.
  intros Hch Hs. unfold IndexDefinition_set_map. rewrite Hs. simpl. split.
  - intros ->. rewrite size_empty. simpl. by rewrite (right_id_L ∅ (∪)).
  - intros Hne.
    destruct (size s) as [|k] eqn:Hsz; [by apply size_empty_inv, leibniz_equiv in Hsz|].
    simpl. specialize (Hch s). destruct (choose s) as [x|]; [|done].
    by exists x.
Qed.

(** With a single statement in the set the assignment replaces it. *)
Lemma map_setter_on_singleton (d : IndexDefinition) (m v : string) :
  choose_ok choose → maps d = MapsSet {[m]} →
  IndexDefinition_set_map choose d v = Ok (with_maps d (MapsSet {[v]})).
Proof.
  intros Hch Hs.
  destruct (map_setter_on_set d {[m]} v Hch Hs) as [_ Hne].
  destruct Hne as (x & Hx & ->); [set_solver|].
  apply elem_of_singleton in Hx as ->.
  do 3 f_equal. rewrite difference_diag_L. apply (right_id_L ∅ (∪)).
Qed.

(** On a [set] of two statements or more, the assignment leaves one of the
    old statements in place beside the new value. *)
Lemma map_setter_keeps_a_statement (d : IndexDefinition) (s : gset string) (v : string) :
  choose_ok choose → maps d = MapsSet s → 1 < size s →
  ∃ d' s' m, IndexDefinition_set_map choose d v = Ok d'
             ∧ maps d' = MapsSet s' ∧ m ∈ s ∧ m ∈ s' ∧ v ∈ s'
             ∧ (v ∉ s → s' ≠ {[v]}).
Proof.
  intros Hch Hs Hsz.
  destruct (map_setter_on_set d s v Hch Hs) as [_ Hne].
  destruct Hne as (x & Hx & ->).
  { intros ->. rewrite size_empty in Hsz. lia. }
  assert (∃ m, m ∈ s ∧ m ≠ x) as (m & Hm & Hmx).
  { assert (0 < size (s ∖ {[x]})) as Hpos.
    { rewrite size_difference by set_solver. rewrite size_singleton. lia. }
    apply size_pos_elem_of in Hpos as [m Hm]. exists m. set_solver. }
  eexists _, _, m. split; [reflexivity|]. simpl.
  split; [reflexivity|]. repeat split; [done | set_solver | set_solver |].
  intros Hv Heq.
  assert (m ∈ {[v]} ∪ s ∖ {[x]}) as Hmv.
  { apply elem_of_union_r, elem_of_difference. split; [done|].
    by intros ?%elem_of_singleton. }
  rewrite Heq in Hmv. apply elem_of_singleton in Hmv as ->. done.
Qed.

End construction.

(** Constructing from an empty collection of statements succeeds, and the
    definition holds no statement. *)
Lemma init_with_no_statement :
  ∃ d, IndexDefinition_init sorted_order (Some "Orders/ByCompany") (ArgTuple []) None
         no_kwargs = Ok d
       ∧ maps d = MapsTuple []
       ∧ statements d = 0.
Proof. eexists. split; [reflexivity|]. split; reflexivity. Qed.

Lemma init_keeps_any_number_of_statements_witness :
  (∀ s, ∃ d, IndexDefinition_init sorted_order (Some "Orders/ByCompany") (ArgStr s)
               None no_kwargs = Ok d
             ∧ maps d = MapsTuple [s] ∧ statements d = 1)
  ∧ (∀ l, ∃ d l', IndexDefinition_init sorted_order (Some "Orders/ByCompany")
                    (ArgTuple l) None no_kwargs = Ok d
                  ∧ maps d = MapsTuple l'
                  ∧ NoDup l' ∧ (∀ x, x ∈ l' ↔ x ∈ l)
                  ∧ (statements d = 0 ↔ l = [])).
Proof.
  apply (init_keeps_any_number_of_statements sorted_order
           (Some "Orders/ByCompany") None no_kwargs).
  exact sorted_order_ok.
Defined.

(** With two statements the getter of [map] returns one of them. *)
Lemma map_getter_with_two_statements :
  ∃ d, IndexDefinition_init sorted_order (Some "Orders/Search")
         (ArgTuple ["from o in docs.Orders select new { o.Company }";
                    "from c in docs.Companies select new { c.Name }"])
         None no_kwargs = Ok d
       ∧ statements d = 2
       ∧ IndexDefinition_map d = Ok "from o in docs.Orders select new { o.Company }".
Proof. eexists. split; [reflexivity|]. split; vm_compute; reflexivity. Qed.

Lemma map_getter_returns_first_witness :
  ∃ l, maps (index_named (Some "Orders/ByCompany") None) = MapsTuple l
       ∧ (statements (index_named (Some "Orders/ByCompany") None) = 1 →
          ∃ m, l = [m]
               ∧ IndexDefinition_map (index_named (Some "Orders/ByCompany") None) = Ok m)
       ∧ (1 < statements (index_named (Some "Orders/ByCompany") None) →
          ∃ m, l !! 0 = Some m ∧ m ∈ l
               ∧ IndexDefinition_map (index_named (Some "Orders/ByCompany") None) = Ok m)
       ∧ (statements (index_named (Some "Orders/ByCompany") None) = 0 →
          IndexDefinition_map (index_named (Some "Orders/ByCompany") None)
          = Raise IndexError).
Proof.
  apply (map_getter_returns_first sorted_order
           (index_named (Some "Orders/ByCompany") None)).
  exists (Some "Orders/ByCompany"),
    (ArgStr "from o in docs.Orders select new { o.Company }"), None, no_kwargs.
  reflexivity.
Defined.

Lemma map_setter_raises_witness :
  IndexDefinition_set_map first_element (index_named (Some "Orders/ByCompany") None)
    "from o in docs.Orders select new { o.Employee }"
  = Raise AttributeError.
Proof.
  apply (map_setter_raises sorted_order first_element
           (index_named (Some "Orders/ByCompany") None)).
  exists (Some "Orders/ByCompany"),
    (ArgStr "from o in docs.Orders select new { o.Company }"), None, no_kwargs.
  reflexivity.
Defined.

(** On a [set] of two statements the assignment leaves two statements. *)
Lemma map_setter_on_two_statements :
  IndexDefinition_set_map first_element
    (with_maps (index_named (Some "Orders/Search") None) (MapsSet {[ "m1"; "m2" ]}))
    "m3"
  = Ok (with_maps (index_named (Some "Orders/Search") None) (MapsSet {[ "m2"; "m3" ]})).
Proof. vm_compute. reflexivity. Qed.

(* ===================================================================== *)
(** ** Serialisation *)
(* ===================================================================== *)

Ltac enum_token := apply str_if_token; [done | done].

(** C7: a field-options record serialises under exactly the seven keys
    [Analyzer], [Indexing], [Sort], [Spatial], [Storage], [Suggestions] and
    [TermVector]; an enumeration attribute gives its token when set and null
    when not, the analyzer and the suggestions flag are passed as they are
    (null when unset), [Spatial] is null; with nothing set every key is
    there and holds null. *)
Theorem field_options_to_json (o : IndexFieldOptions) :
  dom (IndexFieldOptions_to_json o) = field_options_keys
  ∧ IndexFieldOptions_to_json o !! "Analyzer" = Some (py_opt PyStr (analyzer o))
  ∧ IndexFieldOptions_to_json o !! "Indexing" = Some (token_or_null (indexing o))
  ∧ IndexFieldOptions_to_json o !! "Sort" = Some (token_or_null (sort_options o))
  ∧ IndexFieldOptions_to_json o !! "Spatial" = Some PyNone
  ∧ IndexFieldOptions_to_json o !! "Storage" = Some (token_or_null (storage o))
  ∧ IndexFieldOptions_to_json o !! "Suggestions" = Some (py_opt PyBool (suggestions o))
  ∧ IndexFieldOptions_to_json o !! "TermVector" = Some (token_or_null (term_vector o))
  ∧ (∀ k, k ∈ field_options_keys →
          IndexFieldOptions_to_json IndexFieldOptions_unset !! k = Some PyNone)
  ∧ (∀ k, k ∉ field_options_keys → IndexFieldOptions_to_json o !! k = None).
Proof.
  assert (dom (IndexFieldOptions_to_json o) = field_options_keys) as Hdom.
  { unfold IndexFieldOptions_to_json, field_options_keys.
    rewrite !dom_insert_L, dom_singleton_L. set_solver. }
  split; [done|].
  split; [done|].
  split; [unfold IndexFieldOptions_to_json; simplify_map_eq; f_equal; enum_token|].
  split; [unfold IndexFieldOptions_to_json; simplify_map_eq; f_equal; enum_token|].
  split; [done|].
  split; [unfold IndexFieldOptions_to_json; simplify_map_eq; f_equal; enum_token|].
  split; [done|].
  split; [unfold IndexFieldOptions_to_json; simplify_map_eq; f_equal; enum_token|].
  split.
  - intros k Hk. unfold field_options_keys in Hk.
    repeat (apply elem_of_union in Hk as [Hk|Hk]);
      apply elem_of_singleton in Hk as ->; reflexivity.
  - intros k Hk. apply not_elem_of_dom. by rewrite Hdom.
Qed.

Lemma type_is_a_token (d : IndexDefinition) :
  IndexDefinition_type d ∈ ["Map"; "MapReduce"; "AutoMap"; "AutoMapReduce"].
Proof.
  rewrite type_by_cases.
  destruct (is_auto d), (has_reduce d); simpl; set_solver.
Qed.

(** Both branches of the ["Fields"] entry are the mapping of each field name
    to its options' record: the second is taken when there is no field. *)
Lemma fields_entry (f : gmap string IndexFieldOptions) :
  (if bool_decide (0 < size f)
   then PyDict ((λ o, PyDict (IndexFieldOptions_to_json o)) <$> f)
   else PyDict (PyObject <$> f))
  = PyDict ((λ o, PyDict (IndexFieldOptions_to_json o)) <$> f).
Proof.
  case_bool_decide as Hsz; [done|].
  assert (f = ∅) as -> by (apply map_size_empty_inv; lia).
  by rewrite !fmap_empty.
Qed.

(** C8: an index definition serialises under exactly the eleven keys
    [Configuration], [Fields], [IndexId], [IsTestIndex], [LockMode], [Maps],
    [Name], [Reduce], [OutputReduceToCollection], [Priority] and [Type].
    [Fields] maps each field name to the serialisation of its options and is
    the empty mapping, not null, when there is no field; [LockMode] and
    [Priority] are the enumeration's token or null;
    [OutputReduceToCollection] is null; [Type] is one of the four
    classification tokens. *)
Theorem index_definition_to_json (d : IndexDefinition) :
  dom (IndexDefinition_to_json d) = index_definition_keys
  ∧ IndexDefinition_to_json d !! "Fields"
    = Some (PyDict ((λ o, PyDict (IndexFieldOptions_to_json o)) <$> fields d))
  ∧ (fields d = ∅ → IndexDefinition_to_json d !! "Fields" = Some (PyDict ∅))
  ∧ IndexDefinition_to_json d !! "Fields" ≠ Some PyNone
  ∧ IndexDefinition_to_json d !! "LockMode" = Some (token_or_null (lock_mod d))
  ∧ IndexDefinition_to_json d !! "Priority" = Some (token_or_null (priority d))
  ∧ IndexDefinition_to_json d !! "OutputReduceToCollection" = Some PyNone
  ∧ IndexDefinition_to_json d !! "Type" = Some (PyStr (IndexDefinition_type d))
  ∧ IndexDefinition_type d ∈ ["Map"; "MapReduce"; "AutoMap"; "AutoMapReduce"]
  ∧ IndexDefinition_to_json d !! "Configuration"
    = Some (PyDict (PyStr <$> configuration d))
  ∧ IndexDefinition_to_json d !! "IndexId" = Some (PyInt (index_id d))
  ∧ IndexDefinition_to_json d !! "IsTestIndex" = Some (PyBool (is_test_index d))
  ∧ IndexDefinition_to_json d !! "Maps" = Some (py_maps (maps d))
  ∧ IndexDefinition_to_json d !! "Name" = Some (py_opt PyStr (name d))
  ∧ IndexDefinition_to_json d !! "Reduce" = Some (py_opt PyStr (reduce d)).
Proof.
  assert (IndexDefinition_to_json d !! "Fields"
          = Some (PyDict ((λ o, PyDict (IndexFieldOptions_to_json o)) <$> fields d)))
    as Hfields.
  { unfold IndexDefinition_to_json. simplify_map_eq. f_equal. apply fields_entry. }
  split.
  { unfold IndexDefinition_to_json, index_definition_keys.
    rewrite !dom_insert_L, dom_singleton_L. set_solver. }
  split; [done|].
  split; [intros Hf; by rewrite Hfields, Hf, fmap_empty|].
  split; [by rewrite Hfields|].
  split; [unfold IndexDefinition_to_json; simplify_map_eq; f_equal; enum_token|].
  split; [unfold IndexDefinition_to_json; simplify_map_eq; f_equal; enum_token|].
  split; [done|].
  split; [done|].
  split; [apply type_is_a_token|].
  repeat split.
Qed.

(* ===================================================================== *)
(** ** Index queries: the staleness wait and the page size *)
(* ===================================================================== *)

(** C5: constructed with [wait_for_non_stale_results] true and no timeout,
    a query waits for exactly 15 minutes; with the flag false (or not given)
    the timeout is the one given, absent when none was; assigning the flag
    or the timeout afterwards changes that attribute alone. *)
Theorem staleness_wait_rule (q : string) (ts sk : Z)
    (op : option QueryOperator.t) (kw : IndexQuery_kwargs) :
  (kw_wait_for_non_stale_results kw = Some true →
   kw_wait_for_non_stale_results_timeout kw = None →
   wait_for_non_stale_results (IndexQuery_init q ts sk op kw) = true
   ∧ wait_for_non_stale_results_timeout (IndexQuery_init q ts sk op kw)
     = Some (timedelta_minutes 15))
  ∧ (timedelta_minutes 15 = {| days := 0; seconds := 900; microseconds := 0 |}
     ∧ total_seconds (timedelta_minutes 15) = (15 * 60)%Z)
  ∧ (kw_wait_for_non_stale_results kw = Some false
     ∨ kw_wait_for_non_stale_results kw = None →
     wait_for_non_stale_results (IndexQuery_init q ts sk op kw) = false
     ∧ wait_for_non_stale_results_timeout (IndexQuery_init q ts sk op kw)
       = kw_wait_for_non_stale_results_timeout kw)
  ∧ (∀ Q b,
       wait_for_non_stale_results (IndexQuery_set_wait_for_non_stale_results Q b) = b
       ∧ wait_for_non_stale_results_timeout
           (IndexQuery_set_wait_for_non_stale_results Q b)
         = wait_for_non_stale_results_timeout Q)
  ∧ (∀ Q t,
       wait_for_non_stale_results_timeout
         (IndexQuery_set_wait_for_non_stale_results_timeout Q t) = t
       ∧ wait_for_non_stale_results
           (IndexQuery_set_wait_for_non_stale_results_timeout Q t)
         = wait_for_non_stale_results Q).
Proof.
  split; [|split; [|split; [|split]]].
  - intros Hw Ht. unfold IndexQuery_init. simpl. by rewrite Hw, Ht.
  - done.
  - intros Hw. unfold IndexQuery_init. simpl. by destruct Hw as [-> | ->].
  - done.
  - done.
Qed.

Lemma staleness_wait_rule_witness :
  (wait_for_non_stale_results (IndexQuery_init "Company:HR" 0 0 None (waiting None)) = true
   ∧ wait_for_non_stale_results_timeout
       (IndexQuery_init "Company:HR" 0 0 None (waiting None))
     = Some (timedelta_minutes 15))
  ∧ wait_for_non_stale_results_timeout
      (IndexQuery_set_wait_for_non_stale_results IndexQuery_default true) = None.
Proof.
  split.
  - apply (staleness_wait_rule "Company:HR" 0 0 None (waiting None)); reflexivity.
  - reflexivity.
Defined.

(** X3: a timeout that is given and not zero is kept when waiting; a timeout
    of zero counts as none, and is replaced by 15 minutes. *)
Theorem staleness_wait_explicit_timeout (q : string) (ts sk : Z)
    (op : option QueryOperator.t) (t : timedelta) :
  wait_for_non_stale_results_timeout (IndexQuery_init q ts sk op (waiting (Some t)))
  = if truthy t then Some t else Some (timedelta_minutes 15).
Proof.
  unfold IndexQuery_init, waiting; cbn -[timedelta_minutes truthy].
  change (truthy (Some t)) with (truthy t). by destruct (truthy t).
Qed.

Lemma staleness_wait_zero_timeout :
  wait_for_non_stale_results_timeout
    (IndexQuery_init "" 0 0 None
       (waiting (Some {| days := 0; seconds := 0; microseconds := 0 |})))
  = Some {| days := 0; seconds := 900; microseconds := 0 |}.
Proof. reflexivity. Qed.

(** A query as constructed reads a page size of 128 with the flag
    [_IndexQuery__page_size_set] false; assigning any page size, 128
    included, stores it and sets the flag. *)
Theorem page_size_and_flag (q : string) (ts sk : Z)
    (op : option QueryOperator.t) (kw : IndexQuery_kwargs) :
  IndexQuery_page_size (IndexQuery_init q ts sk op kw) = 128%Z
  ∧ _IndexQuery__page_size_set (IndexQuery_init q ts sk op kw) = false
  ∧ (∀ Q v, IndexQuery_page_size (IndexQuery_set_page_size Q v) = v
            ∧ _IndexQuery__page_size_set (IndexQuery_set_page_size Q v) = true)
  ∧ (IndexQuery_page_size (IndexQuery_set_page_size (IndexQuery_init q ts sk op kw) 128)
     = 128%Z
     ∧ _IndexQuery__page_size_set
         (IndexQuery_set_page_size (IndexQuery_init q ts sk op kw) 128) = true).
Proof. repeat split. Qed.

(* ===================================================================== *)
(** ** The documented examples *)
(* ===================================================================== *)

Lemma example_map_index :
  ∃ d, IndexDefinition_init sorted_order (Some "Orders/ByCompany")
         (ArgStr "from o in docs.Orders select new { o.Company }") None no_kwargs = Ok d
       ∧ IndexDefinition_to_json d !! "Type" = Some (PyStr "Map")
       ∧ IndexDefinition_to_json d !! "Maps"
         = Some (PyTuple [PyStr "from o in docs.Orders select new { o.Company }"])
       ∧ IndexDefinition_to_json d !! "Reduce" = Some PyNone.
Proof. eexists. split; [reflexivity|]. repeat split. Qed.

Lemma example_auto_map_reduce_index :
  ∃ d, IndexDefinition_init sorted_order (Some "Auto/Orders/ByCompany") (ArgStr "m") None
         {| kw_reduce := Some "r"; kw_index_id := None; kw_is_test_index := None;
            kw_lock_mod := None; kw_priority := None; kw_fields := None |} = Ok d
       ∧ IndexDefinition_to_json d !! "Type" = Some (PyStr "AutoMapReduce").
Proof. eexists. split; reflexivity. Qed.

Lemma example_map_reduce_index :
  ∃ d, IndexDefinition_init sorted_order (Some "Orders/Totals") (ArgStr "m") None
         {| kw_reduce := Some "r"; kw_index_id := None; kw_is_test_index := None;
            kw_lock_mod := None; kw_priority := None; kw_fields := None |} = Ok d
       ∧ IndexDefinition_to_json d !! "Type" = Some (PyStr "MapReduce").
Proof. eexists. split; reflexivity. Qed.

Lemma map_setter_keeps_a_statement_witness :
  ∃ d' s' m,
    IndexDefinition_set_map first_element
      (with_maps (index_named (Some "Orders/Search") None) (MapsSet {[ "m1"; "m2" ]})) "m3"
    = Ok d'
    ∧ maps d' = MapsSet s' ∧ m ∈ ({[ "m1"; "m2" ]} : gset string) ∧ m ∈ s' ∧ "m3" ∈ s'
    ∧ ("m3" ∉ ({[ "m1"; "m2" ]} : gset string) → s' ≠ {[ "m3" ]}).
Proof.
  apply (map_setter_keeps_a_statement first_element
           (with_maps (index_named (Some "Orders/Search") None) (MapsSet {[ "m1"; "m2" ]}))
           {[ "m1"; "m2" ]} "m3").
  - exact first_element_ok.
  - reflexivity.
  - vm_compute. lia.
Defined.

(* ===================================================================== *)
(** ** Construction, further *)
(* ===================================================================== *)

(** X5: the statement a definition was constructed from is read back by
    [map]; constructed from a collection, [map] gives one of the
    collection's statements, and raises [IndexError] when the collection is
    empty. *)
Theorem map_after_init (tuple_of_set : list string → list string)
    (n : option string) (c : option (gmap string string))
    (kw : IndexDefinition_kwargs) :
  set_order_ok tuple_of_set →
  (∀ s, init_map tuple_of_set n (ArgStr s) c kw = Ok s)
  ∧ (∀ l, l ≠ [] → ∃ m, m ∈ l ∧ init_map tuple_of_set n (ArgTuple l) c kw = Ok m)
  ∧ init_map tuple_of_set n (ArgTuple []) c kw = Raise IndexError.
Proof.
  intros Hord. unfold init_map, IndexDefinition_init, IndexDefinition_map. simpl.
  split; [done|]. split.
  - intros l Hl. destruct (Hord l) as [_ Hin].
    destruct (tuple_of_set l) as [|m l'] eqn:E.
    + destruct l as [|x l]; [done|].
      assert (x ∈ []) as Hx by (apply Hin; left). by apply elem_of_nil in Hx.
    + exists m. split; [apply Hin; left | done].
  - destruct (Hord []) as [_ Hin].
    destruct (tuple_of_set []) as [|m l'] eqn:E; [done|].
    assert (m ∈ []) as Hm by (apply Hin; left). by apply elem_of_nil in Hm.
Qed.

Lemma map_after_init_witness :
  (∀ s, init_map sorted_order (Some "Orders/ByCompany") (ArgStr s) None no_kwargs = Ok s)
  ∧ (∀ l, l ≠ [] →
       ∃ m, m ∈ l
            ∧ init_map sorted_order (Some "Orders/ByCompany") (ArgTuple l) None no_kwargs
              = Ok m)
  ∧ init_map sorted_order (Some "Orders/ByCompany") (ArgTuple []) None no_kwargs
    = Raise IndexError.
Proof.
  apply (map_after_init sorted_order (Some "Orders/ByCompany") None no_kwargs).
  exact sorted_order_ok.
Defined.

(** X6: constructed from a collection, [maps] holds the collection's
    statements without the repetitions, in some order: never more
    statements than were given, and as many exactly when none was given
    twice. *)
Theorem init_drops_repeated_statements (tuple_of_set : list string → list string)
    (n : option string) (c : option (gmap string string))
    (kw : IndexDefinition_kwargs) (l : list string) :
  set_order_ok tuple_of_set →
  ∃ d l', IndexDefinition_init tuple_of_set n (ArgTuple l) c kw = Ok d
          ∧ maps d = MapsTuple l'
          ∧ l' ≡ₚ remove_dups l
          ∧ (statements d ≤ length l)%nat
          ∧ (statements d = length l ↔ NoDup l).
Proof.
  intros Hord. destruct (Hord l) as [Hnd Hin].
  eexists; exists (tuple_of_set l). split; [reflexivity|]. split; [done|].
  assert (tuple_of_set l ⊆+ l) as Hsub.
  { apply NoDup_submseteq; [done|]. intros x. apply Hin. }
  split; [|split; [|split]].
  - apply NoDup_Permutation; [done | apply NoDup_remove_dups |].
    intros x. rewrite elem_of_remove_dups. apply Hin.
  - unfold statements; simpl. by apply submseteq_length.
  - unfold statements; simpl. intros Hlen.
    assert (tuple_of_set l ≡ₚ l) as Hp.
    { apply submseteq_length_Permutation; [done | lia]. }
    by rewrite <- Hp.
  - intros Hl. unfold statements; simpl.
    apply Permutation_length, NoDup_Permutation; [done | done | apply Hin].
Qed.

Lemma init_drops_repeated_statements_witness :
  ∃ d l', IndexDefinition_init sorted_order (Some "Orders/Search")
            (ArgTuple ["m1"; "m2"; "m1"]) None no_kwargs = Ok d
          ∧ maps d = MapsTuple l'
          ∧ l' ≡ₚ remove_dups ["m1"; "m2"; "m1"]
          ∧ (statements d ≤ length ["m1"; "m2"; "m1"])%nat
          ∧ (statements d = length ["m1"; "m2"; "m1"] ↔ NoDup ["m1"; "m2"; "m1"]).
Proof.
  apply (init_drops_repeated_statements sorted_order (Some "Orders/Search") None
           no_kwargs ["m1"; "m2"; "m1"]).
  exact sorted_order_ok.
Defined.

(* ===================================================================== *)
(** ** The [map] property, further *)
(* ===================================================================== *)

(** X7: when [maps] is a [set] of at most one statement, assigning to [map]
    leaves exactly the assigned statement. *)
Theorem map_setter_replaces_single (choose : gset string → option string)
    (d : IndexDefinition) (s : gset string) (v : string) :
  choose_ok choose → maps d = MapsSet s → (size s ≤ 1)%nat →
  IndexDefinition_set_map choose d v = Ok (with_maps d (MapsSet {[v]})).
Proof.
  intros Hch Hs Hsz.
  destruct (decide (size s = 0)) as [H0|H0].
  - apply size_empty_inv, leibniz_equiv in H0.
    by apply (map_setter_on_set choose d s v Hch Hs).
  - assert (size s = 1) as H1 by lia.
    apply size_1_elem_of in H1 as [m Hm]. apply leibniz_equiv in Hm. subst s.
    by apply (map_setter_on_singleton choose d m v).
Qed.

Lemma map_setter_replaces_single_witness :
  IndexDefinition_set_map first_element
    (with_maps (index_named (Some "Orders/ByCompany") None) (MapsSet {[ "m1" ]})) "m2"
  = Ok (with_maps
          (with_maps (index_named (Some "Orders/ByCompany") None) (MapsSet {[ "m1" ]}))
          (MapsSet {[ "m2" ]})).
Proof.
  apply (map_setter_replaces_single first_element
           (with_maps (index_named (Some "Orders/ByCompany") None) (MapsSet {[ "m1" ]}))
           {[ "m1" ]} "m2").
  - exact first_element_ok.
  - reflexivity.
  - vm_compute. lia.
Defined.

(** X8: reading [map] and assigning to it never both work on the same
    definition, whether [maps] is a tuple, a [set] or a [str]: where the
    getter returns a statement the setter raises [AttributeError], and where
    the setter succeeds the getter raises [TypeError]. *)
Theorem map_getter_setter_exclusive (choose : gset string → option string)
    (d : IndexDefinition) (v : string) :
  ((∃ m, IndexDefinition_map d = Ok m) →
   IndexDefinition_set_map choose d v = Raise AttributeError)
  ∧ ((∃ d', IndexDefinition_set_map choose d v = Ok d') →
     IndexDefinition_map d = Raise TypeError).
Proof.
  unfold IndexDefinition_map, IndexDefinition_set_map.
  destruct (maps d) as [l|s|s]; simpl.
  - split.
    + intros _. by destruct (negb (Nat.eqb (length l) 0)).
    + intros [d' Hd']. by destruct (negb (Nat.eqb (length l) 0)).
  - split; [by intros [m Hm] | done].
  - split.
    + intros _. by destruct (negb (Nat.eqb (String.length s) 0)).
    + intros [d' Hd']. by destruct (negb (Nat.eqb (String.length s) 0)).
Qed.

Lemma map_getter_setter_exclusive_witness :
  IndexDefinition_set_map first_element (index_named (Some "Orders/ByCompany") None) "m2"
  = Raise AttributeError
  ∧ IndexDefinition_map
      (with_maps (index_named (Some "Orders/ByCompany") None) (MapsSet {[ "m1" ]}))
    = Raise TypeError.
Proof.
  split.
  - apply (map_getter_setter_exclusive first_element
             (index_named (Some "Orders/ByCompany") None) "m2").
    eexists. reflexivity.
  - apply (map_getter_setter_exclusive first_element
             (with_maps (index_named (Some "Orders/ByCompany") None) (MapsSet {[ "m1" ]}))
             "m2").
    eexists. vm_compute. reflexivity.
Defined.

(** A successful assignment to [map] returns the definition with another
    [maps], a [set] that holds the assigned statement. *)
Lemma map_setter_result (choose : gset string → option string)
    (d d' : IndexDefinition) (v : string) :
  IndexDefinition_set_map choose d v = Ok d' →
  ∃ s, d' = with_maps d (MapsSet s) ∧ v ∈ s.
Proof.
  unfold IndexDefinition_set_map.
  destruct (maps d) as [l|s|s]; simpl.
  - by destruct (negb (Nat.eqb (length l) 0)).
  - destruct (negb (Nat.eqb (size s) 0)); simpl.
    + destruct (choose s) as [x|]; simpl; [|done].
      intros [= <-]. eexists. split; [reflexivity | set_solver].
    + intros [= <-]. eexists. split; [reflexivity | set_solver].
  - by destruct (negb (Nat.eqb (String.length s) 0)).
Qed.

(** Replacing [maps] changes the entry ["Maps"] of the serialisation and no
    other. *)
Lemma to_json_with_maps (d : IndexDefinition) (m : maps_attr) (k : string) :
  k ≠ "Maps" →
  IndexDefinition_to_json (with_maps d m) !! k = IndexDefinition_to_json d !! k.
Proof.
  intros Hk. unfold IndexDefinition_to_json, with_maps; simpl.
  rewrite !lookup_insert, !lookup_singleton.
  repeat case_decide; first [reflexivity | congruence].
Qed.

(** X9: an assignment to [map] that succeeds changes nothing else: the
    other attributes, the type and every entry of the serialisation but
    ["Maps"] are as before, and ["Maps"] is a set that holds the assigned
    statement. *)
Theorem map_setter_changes_maps_only (choose : gset string → option string)
    (d d' : IndexDefinition) (v : string) :
  IndexDefinition_set_map choose d v = Ok d' →
  (∃ s, maps d' = MapsSet s ∧ v ∈ s
        ∧ IndexDefinition_to_json d' !! "Maps" = Some (PySet s))
  ∧ name d' = name d ∧ reduce d' = reduce d
  ∧ configuration d' = configuration d ∧ fields d' = fields d
  ∧ index_id d' = index_id d ∧ is_test_index d' = is_test_index d
  ∧ lock_mod d' = lock_mod d ∧ priority d' = priority d
  ∧ IndexDefinition_type d' = IndexDefinition_type d
  ∧ (∀ k, k ≠ "Maps" →
          IndexDefinition_to_json d' !! k = IndexDefinition_to_json d !! k).
Proof.
  intros (s & -> & Hv)%map_setter_result.
  split; [exists s; repeat split; done|].
  repeat (split; [reflexivity|]).
  intros k Hk. by apply to_json_with_maps.
Qed.

Lemma map_setter_changes_maps_only_witness :
  ∃ d', IndexDefinition_set_map first_element
          (with_maps (index_named (Some "Orders/Search") None) (MapsSet {[ "m1"; "m2" ]}))
          "m3" = Ok d'
        ∧ IndexDefinition_type d' = "Map"
        ∧ IndexDefinition_to_json d' !! "Name" = Some (PyStr "Orders/Search").
Proof.
  eexists. split; [vm_compute; reflexivity|].
  pose proof (map_setter_changes_maps_only first_element
                (with_maps (index_named (Some "Orders/Search") None)
                   (MapsSet {[ "m1"; "m2" ]}))
                (with_maps (index_named (Some "Orders/Search") None)
                   (MapsSet {[ "m2"; "m3" ]}))
                "m3" map_setter_on_two_statements) as H.
  split; [reflexivity|].
  destruct H as (_ & _ & _ & _ & _ & _ & _ & _ & _ & _ & Hk).
  rewrite Hk; [reflexivity | discriminate].
Defined.

(* ===================================================================== *)
(** ** Serialisation, further *)
(* ===================================================================== *)

Lemma has_reduce_spec (d : IndexDefinition) :
  has_reduce d = true ↔ ∃ r, r ≠ "" ∧ reduce d = Some r.
Proof.
  unfold has_reduce. destruct (reduce d) as [[|c r]|]; simpl.
  - split; [done | by intros (r & Hr & [= <-])].
  - split; [intros _; by exists (String c r) | done].
  - split; [done | by intros (r & _ & ?)].
Qed.

Lemma is_auto_spec (d : IndexDefinition) :
  is_auto d = true ↔ ∃ rest, name d = Some ("Auto/" ++ rest).
Proof.
  unfold is_auto. destruct (name d) as [n|].
  - rewrite startswith_spec. split; intros [rest Hr]; exists rest; congruence.
  - split; [done | by intros [rest ?]].
Qed.

(** X10: the entries of a serialised definition agree with one another:
    ["Type"] is a reduce type exactly when ["Reduce"] holds a string that is
    not empty, and an auto type exactly when ["Name"] starts with ["Auto/"];
    [is_map_reduce] says the same as ["Type"]. *)
Theorem to_json_type_agrees (d : IndexDefinition) :
  ((IndexDefinition_to_json d !! "Type" = Some (PyStr "MapReduce")
    ∨ IndexDefinition_to_json d !! "Type" = Some (PyStr "AutoMapReduce"))
   ↔ ∃ r, r ≠ "" ∧ IndexDefinition_to_json d !! "Reduce" = Some (PyStr r))
  ∧ ((IndexDefinition_to_json d !! "Type" = Some (PyStr "AutoMap")
      ∨ IndexDefinition_to_json d !! "Type" = Some (PyStr "AutoMapReduce"))
     ↔ ∃ rest, IndexDefinition_to_json d !! "Name" = Some (PyStr ("Auto/" ++ rest)))
  ∧ (IndexDefinition_is_map_reduce d = true
     ↔ (IndexDefinition_to_json d !! "Type" = Some (PyStr "MapReduce")
        ∨ IndexDefinition_to_json d !! "Type" = Some (PyStr "AutoMapReduce"))).
Proof.
  change (IndexDefinition_to_json d !! "Type")
    with (Some (PyStr (IndexDefinition_type d))).
  change (IndexDefinition_to_json d !! "Reduce")
    with (Some (py_opt PyStr (reduce d))).
  change (IndexDefinition_to_json d !! "Name")
    with (Some (py_opt PyStr (name d))).
  assert (IndexDefinition_is_map_reduce d = has_reduce d) as ->.
  { unfold IndexDefinition_is_map_reduce. rewrite truthy_reduce.
    by destruct (has_reduce d). }
  rewrite type_by_cases.
  pose proof (has_reduce_spec d) as Hr. pose proof (is_auto_spec d) as Ha.
  assert ((∃ r, r ≠ "" ∧ Some (py_opt PyStr (reduce d)) = Some (PyStr r))
          ↔ has_reduce d = true) as ->.
  { rewrite Hr. split; intros (r & Hne & Heq); exists r; (split; [done|]).
    - destruct (reduce d); simpl in Heq; congruence.
    - by rewrite Heq. }
  assert ((∃ rest, Some (py_opt PyStr (name d)) = Some (PyStr ("Auto/" ++ rest)))
          ↔ is_auto d = true) as ->.
  { rewrite Ha. split; intros (rest & Heq); exists rest.
    - destruct (name d); simpl in Heq; congruence.
    - by rewrite Heq. }
  destruct (is_auto d), (has_reduce d); simpl;
    (split; [|split]); split;
    first [ done | intros [[=]|[=]] | by left | by right ].
Qed.

(** X11: in a serialised field-options record an entry is null exactly when
    the attribute is unset; a member such as [SortOptions.none] or
    [FieldIndexing.no] is a set attribute and gives its string. *)
Theorem field_options_null_iff_unset (o : IndexFieldOptions) :
  (IndexFieldOptions_to_json o !! "Sort" = Some PyNone ↔ sort_options o = None)
  ∧ (IndexFieldOptions_to_json o !! "Indexing" = Some PyNone ↔ indexing o = None)
  ∧ (IndexFieldOptions_to_json o !! "Storage" = Some PyNone ↔ storage o = None)
  ∧ (IndexFieldOptions_to_json o !! "TermVector" = Some PyNone ↔ term_vector o = None)
  ∧ (IndexFieldOptions_to_json o !! "Analyzer" = Some PyNone ↔ analyzer o = None)
  ∧ (IndexFieldOptions_to_json o !! "Suggestions" = Some PyNone ↔ suggestions o = None).
Proof.
  change (IndexFieldOptions_to_json o !! "Sort") with (Some (str_if (sort_options o))).
  change (IndexFieldOptions_to_json o !! "Indexing") with (Some (str_if (indexing o))).
  change (IndexFieldOptions_to_json o !! "Storage") with (Some (str_if (storage o))).
  change (IndexFieldOptions_to_json o !! "TermVector")
    with (Some (str_if (term_vector o))).
  change (IndexFieldOptions_to_json o !! "Analyzer")
    with (Some (py_opt PyStr (analyzer o))).
  change (IndexFieldOptions_to_json o !! "Suggestions")
    with (Some (py_opt PyBool (suggestions o))).
  destruct o as [so ix st su tv an]; simpl.
  repeat split;
    match goal with
    | |- Some (_ ?x) = _ → _ => destruct x; simpl; [intros [=] | done]
    | |- Some (_ _ ?x) = _ → _ => destruct x; simpl; [intros [=] | done]
    | |- _ → _ => by intros ->
    end.
Qed.

(** An enumeration attribute can be read back from what it serialises as. *)
Lemma str_if_inj `{Enum E} (S : Str E) (T : Truthy E) :
  (∀ e, str e = value e) → (∀ e, truthy e = true) →
  (∀ a b : E, value a = value b → a = b) →
  ∀ x y : option E, str_if x = str_if y → x = y.
Proof.
  intros Hs Ht Hinj x y.
  rewrite !(str_if_token S T) by done.
  destruct x as [a|], y as [b|]; simpl; try done.
  intros [= Hab]. f_equal. by apply Hinj.
Qed.

Lemma py_opt_inj {A} (f : A → pyval) :
  (∀ a b, f a = f b → a = b) → (∀ a, f a ≠ PyNone) →
  ∀ x y : option A, py_opt f x = py_opt f y → x = y.
Proof.
  intros Hinj Hne [a|] [b|]; simpl; try done.
  - intros Hab. f_equal. by apply Hinj.
  - intros Ha. by destruct (Hne a).
  - intros Hb. by destruct (Hne b).
Qed.

Lemma py_maps_inj (m1 m2 : maps_attr) : py_maps m1 = py_maps m2 → m1 = m2.
Proof.
  destruct m1 as [l1|s1|s1], m2 as [l2|s2|s2]; simpl; try done.
  - intros [= Hl]. f_equal.
    revert l2 Hl. induction l1 as [|a l1 IH]; intros [|b l2]; simpl; try done.
    intros [= -> Hl]. f_equal. by apply IH.
  - by intros [= ->].
  - by intros [= ->].
Qed.

Lemma PyDict_inj (m1 m2 : gmap string pyval) : PyDict m1 = PyDict m2 → m1 = m2.
Proof.
  intros Heq.
  exact (f_equal (λ v, match v with PyDict m => m | _ => m1 end) Heq).
Qed.

Lemma field_options_to_json_inj (o1 o2 : IndexFieldOptions) :
  IndexFieldOptions_to_json o1 = IndexFieldOptions_to_json o2 → o1 = o2.
Proof.
  intros Heq.
  assert (Some (py_opt PyStr (analyzer o1)) = Some (py_opt PyStr (analyzer o2)))
    as [= Han] by exact (f_equal (.!! "Analyzer") Heq).
  assert (Some (str_if (indexing o1)) = Some (str_if (indexing o2)))
    as [= Hix] by exact (f_equal (.!! "Indexing") Heq).
  assert (Some (str_if (sort_options o1)) = Some (str_if (sort_options o2)))
    as [= Hso] by exact (f_equal (.!! "Sort") Heq).
  assert (Some (str_if (storage o1)) = Some (str_if (storage o2)))
    as [= Hst] by exact (f_equal (.!! "Storage") Heq).
  assert (Some (py_opt PyBool (suggestions o1)) = Some (py_opt PyBool (suggestions o2)))
    as [= Hsu] by exact (f_equal (.!! "Suggestions") Heq).
  assert (Some (str_if (term_vector o1)) = Some (str_if (term_vector o2)))
    as [= Htv] by exact (f_equal (.!! "TermVector") Heq).
  apply py_opt_inj in Han; [|by intros a b [=] | done].
  apply py_opt_inj in Hsu; [|by intros a b [=] | done].
  apply str_if_inj in Hix; [|done|done|apply FieldIndexing_str_inj].
  apply str_if_inj in Hso; [|done|done|apply SortOptions_str_inj].
  apply str_if_inj in Hst; [|done|done|apply FieldStorage_str_inj].
  apply str_if_inj in Htv; [|done|done|apply FieldTermVector_str_inj].
  destruct o1, o2; simpl in *. congruence.
Qed.

(** X12: the serialisation of field options loses nothing: two
    field-options records that serialise alike are the same record. *)
Theorem field_options_to_json_injective (o1 o2 : IndexFieldOptions) :
  IndexFieldOptions_to_json o1 = IndexFieldOptions_to_json o2 ↔ o1 = o2.
Proof. split; [apply field_options_to_json_inj | by intros ->]. Qed.

(** X13: the serialisation of an index definition loses nothing either:
    two definitions that serialise alike have the same name, statements,
    reduce, configuration, fields, id, test flag, lock mode and priority. *)
Theorem index_definition_to_json_injective (d1 d2 : IndexDefinition) :
  IndexDefinition_to_json d1 = IndexDefinition_to_json d2 ↔ d1 = d2.
Proof.
  split; [|by intros ->]. intros Heq.
  assert (Some (PyDict (PyStr <$> configuration d1))
          = Some (PyDict (PyStr <$> configuration d2)))
    as [= Hc] by exact (f_equal (.!! "Configuration") Heq).
  assert (IndexDefinition_to_json d1 !! "Fields" = IndexDefinition_to_json d2 !! "Fields")
    as Hf by exact (f_equal (.!! "Fields") Heq).
  change (IndexDefinition_to_json d1 !! "Fields")
    with (Some (if bool_decide (0 < size (fields d1))
                then PyDict ((λ o, PyDict (IndexFieldOptions_to_json o)) <$> fields d1)
                else PyDict (PyObject <$> fields d1))) in Hf.
  change (IndexDefinition_to_json d2 !! "Fields")
    with (Some (if bool_decide (0 < size (fields d2))
                then PyDict ((λ o, PyDict (IndexFieldOptions_to_json o)) <$> fields d2)
                else PyDict (PyObject <$> fields d2))) in Hf.
  rewrite !fields_entry in Hf. injection Hf as Hf.
  assert (Some (PyInt (index_id d1)) = Some (PyInt (index_id d2)))
    as [= Hid] by exact (f_equal (.!! "IndexId") Heq).
  assert (Some (PyBool (is_test_index d1)) = Some (PyBool (is_test_index d2)))
    as [= Hti] by exact (f_equal (.!! "IsTestIndex") Heq).
  assert (Some (str_if (lock_mod d1)) = Some (str_if (lock_mod d2)))
    as [= Hlm] by exact (f_equal (.!! "LockMode") Heq).
  assert (Some (py_maps (maps d1)) = Some (py_maps (maps d2)))
    as [= Hm] by exact (f_equal (.!! "Maps") Heq).
  assert (Some (py_opt PyStr (name d1)) = Some (py_opt PyStr (name d2)))
    as [= Hn] by exact (f_equal (.!! "Name") Heq).
  assert (Some (py_opt PyStr (reduce d1)) = Some (py_opt PyStr (reduce d2)))
    as [= Hr] by exact (f_equal (.!! "Reduce") Heq).
  assert (Some (str_if (priority d1)) = Some (str_if (priority d2)))
    as [= Hp] by exact (f_equal (.!! "Priority") Heq).
  apply (map_fmap_inj PyStr) in Hc; [|by intros a b [=]].
  apply (map_fmap_inj (λ o, PyDict (IndexFieldOptions_to_json o))) in Hf;
    [|intros a b Hab%PyDict_inj; by apply field_options_to_json_inj].
  apply str_if_inj in Hlm; [|done|done|apply IndexLockMode_str_inj].
  apply str_if_inj in Hp; [|done|done|apply IndexPriority_str_inj].
  apply py_maps_inj in Hm.
  apply py_opt_inj in Hn; [|by intros a b [=] | done].
  apply py_opt_inj in Hr; [|by intros a b [=] | done].
  destruct d1, d2; simpl in *. congruence.
Qed.

(** X14: a definition constructed from a name and one statement, with
    nothing else given, serialises with an empty configuration, no field,
    id 0, not a test index, no lock mode, no priority, no reduce, its one
    statement, and the type ["AutoMap"] or ["Map"] by its name. *)
Theorem minimal_definition_to_json (tuple_of_set : list string → list string)
    (n s : string) :
  init_to_json tuple_of_set (Some n) (ArgStr s) None no_kwargs
  = Ok {[ "Configuration" := PyDict ∅;
          "Fields" := PyDict ∅;
          "IndexId" := PyInt 0;
          "IsTestIndex" := PyBool false;
          "LockMode" := PyNone;
          "Maps" := PyTuple [PyStr s];
          "Name" := PyStr n;
          "Reduce" := PyNone;
          "OutputReduceToCollection" := PyNone;
          "Priority" := PyNone;
          "Type" := PyStr (if startswith n "Auto/" then "AutoMap" else "Map") ]}.
Proof.
  unfold init_to_json, IndexDefinition_init, IndexDefinition_to_json; simpl.
  rewrite !fmap_empty.
  unfold IndexDefinition_type; simpl.
  replace (truthy n && startswith n "Auto/") with (startswith n "Auto/")
    by (by destruct n).
  by destruct (startswith n "Auto/").
Qed.

(* ===================================================================== *)
(** ** Index queries, further *)
(* ===================================================================== *)

(** X15: a query that waits for non-stale results as constructed always
    carries a timeout, and one that is not zero: the one given, or 15
    minutes. *)
Theorem waiting_query_has_timeout (q : string) (ts sk : Z)
    (op : option QueryOperator.t) (kw : IndexQuery_kwargs) :
  wait_for_non_stale_results (IndexQuery_init q ts sk op kw) = true →
  ∃ t, wait_for_non_stale_results_timeout (IndexQuery_init q ts sk op kw) = Some t
       ∧ truthy t = true
       ∧ (t = timedelta_minutes 15
          ∨ kw_wait_for_non_stale_results_timeout kw = Some t).
Proof.
  unfold IndexQuery_init; cbn -[timedelta_minutes truthy].
  intros Hw. rewrite Hw.
  change (truthy true) with true. cbn -[timedelta_minutes truthy].
  destruct (kw_wait_for_non_stale_results_timeout kw) as [t|].
  - change (truthy (Some t)) with (truthy t).
    destruct (truthy t) eqn:Ht; cbn -[timedelta_minutes truthy].
    + exists t. by repeat split; [..|right].
    + exists (timedelta_minutes 15). by repeat split; [..|left].
  - exists (timedelta_minutes 15). by repeat split; [..|left].
Qed.

Lemma waiting_query_has_timeout_witness :
  ∃ t, wait_for_non_stale_results_timeout
         (IndexQuery_init "Company:HR" 0 0 None
            (waiting (Some {| days := 0; seconds := 30; microseconds := 0 |}))) = Some t
       ∧ truthy t = true
       ∧ (t = timedelta_minutes 15
          ∨ kw_wait_for_non_stale_results_timeout
              (waiting (Some {| days := 0; seconds := 30; microseconds := 0 |})) = Some t).
Proof.
  apply (waiting_query_has_timeout "Company:HR" 0 0 None
           (waiting (Some {| days := 0; seconds := 30; microseconds := 0 |}))).
  reflexivity.
Defined.

Lemma assign_page_sizes_snoc (q : IndexQuery) (vs : list Z) (v : Z) :
  IndexQuery_assign_page_sizes q (vs ++ [v])
  = IndexQuery_set_page_size (IndexQuery_assign_page_sizes q vs) v.
Proof. unfold IndexQuery_assign_page_sizes. apply foldl_snoc. Qed.

(** X16: after any number of assignments to [page_size] the page size is
    the last value assigned (the former one when there was none), the flag
    is set as soon as there was one assignment and is never cleared, and no
    other attribute of the query has changed. *)
Theorem page_size_assignments (q : IndexQuery) (vs : list Z) :
  IndexQuery_page_size (IndexQuery_assign_page_sizes q vs)
  = default (IndexQuery_page_size q) (last vs)
  ∧ _IndexQuery__page_size_set (IndexQuery_assign_page_sizes q vs)
    = (_IndexQuery__page_size_set q || bool_decide (vs ≠ []))
  ∧ query (IndexQuery_assign_page_sizes q vs) = query q
  ∧ total_size (IndexQuery_assign_page_sizes q vs) = total_size q
  ∧ skipped_results (IndexQuery_assign_page_sizes q vs) = skipped_results q
  ∧ default_operator (IndexQuery_assign_page_sizes q vs) = default_operator q
  ∧ sort_hints (IndexQuery_assign_page_sizes q vs) = sort_hints q
  ∧ sort_fields (IndexQuery_assign_page_sizes q vs) = sort_fields q
  ∧ fetch (IndexQuery_assign_page_sizes q vs) = fetch q
  ∧ wait_for_non_stale_results (IndexQuery_assign_page_sizes q vs)
    = wait_for_non_stale_results q
  ∧ wait_for_non_stale_results_timeout (IndexQuery_assign_page_sizes q vs)
    = wait_for_non_stale_results_timeout q.
Proof.
  induction vs as [|v vs IH] using rev_ind.
  - simpl. rewrite orb_false_r. repeat split.
  - rewrite assign_page_sizes_snoc, last_snoc.
    destruct IH as (_ & _ & ? & ? & ? & ? & ? & ? & ? & ? & ?).
    simpl. split; [done|]. split.
    + rewrite bool_decide_true; [by rewrite orb_true_r | by destruct vs].
    + repeat split; done.
Qed.

(* ===================================================================== *)
(** ** The page-size flag as an attribute *)
(* ===================================================================== *)





(* ===================================================================== *)
(** ** Assigning to [map] on a set of several statements *)
(* ===================================================================== *)

(** X4: on a [set] of two statements or more, assigning [v] to [map] takes
    out one statement [x] of the set and puts in [v]: [maps] becomes the set
    without [x], with [v]. The statement [x] is gone unless it is [v]
    itself; another old statement is still there; and when [v] was not
    among the statements there are as many as before, so [maps] is not
    [v] alone. *)
Theorem map_setter_pops_one_statement (choose : gset string → option string)
    (d : IndexDefinition) (s : gset string) (v : string) :
  choose_ok choose → maps d = MapsSet s → 1 < size s →
  ∃ x m, choose s = Some x ∧ x ∈ s
         ∧ IndexDefinition_set_map choose d v
           = Ok (with_maps d (MapsSet ({[v]} ∪ s ∖ {[x]})))
         ∧ (x ≠ v → x ∉ {[v]} ∪ s ∖ {[x]})
         ∧ (m ∈ s ∧ m ≠ x ∧ m ∈ {[v]} ∪ s ∖ {[x]})
         ∧ (∀ y, y ∈ {[v]} ∪ s ∖ {[x]} ↔ y = v ∨ (y ∈ s ∧ y ≠ x))
         ∧ (v ∉ s → size ({[v]} ∪ s ∖ {[x]}) = size s
                    ∧ {[v]} ∪ s ∖ {[x]} ≠ {[v]}).
Proof.
  intros Hch Hs Hsz.
  assert (∃ x, choose s = Some x ∧ x ∈ s) as (x & Hcx & Hx).
  { specialize (Hch s). destruct (choose s) as [x|]; [by exists x|].
    subst s. rewrite size_empty in Hsz. lia. }
  assert (IndexDefinition_set_map choose d v
          = Ok (with_maps d (MapsSet ({[v]} ∪ s ∖ {[x]})))) as Hset.
  { unfold IndexDefinition_set_map. rewrite Hs. simpl.
    destruct (size s) as [|k] eqn:Hk; [lia|]. simpl. by rewrite Hcx. }
  assert (size (s ∖ {[x]}) = size s - 1) as Hdiff.
  { rewrite size_difference by (by apply singleton_subseteq_l).
    by rewrite size_singleton. }
  assert (∃ m, m ∈ s ∧ m ≠ x) as (m & Hm & Hmx).
  { assert (0 < size (s ∖ {[x]})) as Hpos by lia.
    apply size_pos_elem_of in Hpos as [m Hm].
    apply elem_of_difference in Hm as [Hm Hmx].
    exists m. split; [done|]. intros Heq. apply Hmx. by apply elem_of_singleton. }
  assert (∀ y, y ∈ {[v]} ∪ s ∖ {[x]} ↔ y = v ∨ (y ∈ s ∧ y ≠ x)) as Hmem.
  { intros y. rewrite elem_of_union, elem_of_difference, !elem_of_singleton. done. }
  exists x, m. split; [done|]. split; [done|]. split; [done|].
  split; [|split; [|split; [done|]]].
  - intros Hxv [Hv | [_ Hxx]]%Hmem; congruence.
  - split; [done|]. split; [done|]. apply Hmem. by right.
  - intros Hv. split.
    + rewrite size_union.
      * rewrite size_singleton, Hdiff. lia.
      * apply disjoint_singleton_l. by intros [? _]%elem_of_difference.
    + intros Heq.
      assert (m ∈ ({[v]} : gset string)) as Hmv.
      { rewrite <- Heq. apply Hmem. by right. }
      apply elem_of_singleton in Hmv. congruence.
Qed.

Lemma map_setter_pops_one_statement_witness :
  ∃ x m, first_element {[ "m1"; "m2" ]} = Some x
         ∧ x ∈ ({[ "m1"; "m2" ]} : gset string)
         ∧ IndexDefinition_set_map first_element
             (with_maps (index_named (Some "Orders/Search") None)
                (MapsSet {[ "m1"; "m2" ]})) "m3"
           = Ok (with_maps
                   (with_maps (index_named (Some "Orders/Search") None)
                      (MapsSet {[ "m1"; "m2" ]}))
                   (MapsSet ({[ "m3" ]} ∪ {[ "m1"; "m2" ]} ∖ {[x]})))
         ∧ (x ≠ "m3" → x ∉ ({[ "m3" ]} ∪ {[ "m1"; "m2" ]} ∖ {[x]} : gset string))
         ∧ (m ∈ ({[ "m1"; "m2" ]} : gset string) ∧ m ≠ x
            ∧ m ∈ ({[ "m3" ]} ∪ {[ "m1"; "m2" ]} ∖ {[x]} : gset string))
         ∧ (∀ y, y ∈ ({[ "m3" ]} ∪ {[ "m1"; "m2" ]} ∖ {[x]} : gset string)
                 ↔ y = "m3" ∨ (y ∈ ({[ "m1"; "m2" ]} : gset string) ∧ y ≠ x))
         ∧ ("m3" ∉ ({[ "m1"; "m2" ]} : gset string) →
            size ({[ "m3" ]} ∪ {[ "m1"; "m2" ]} ∖ {[x]} : gset string)
            = size ({[ "m1"; "m2" ]} : gset string)
            ∧ ({[ "m3" ]} ∪ {[ "m1"; "m2" ]} ∖ {[x]} : gset string) ≠ {[ "m3" ]}).
Proof.
  apply (map_setter_pops_one_statement first_element
           (with_maps (index_named (Some "Orders/Search") None) (MapsSet {[ "m1"; "m2" ]}))
           {[ "m1"; "m2" ]} "m3").
  - exact first_element_ok.
  - reflexivity.
  - vm_compute. lia.
Defined.
